(** * Account_Summary_MP_to_XLSX: line reconstruction and field extraction

    A shallow embedding of the parsing core of
    [src/Account_Summary_MP_to_XLSX.py]: [combine_broken_lines],
    [extract_fields_from_line], [convert_money_to_number], [clean_balance]
    and the record loop of [pdf_text_to_dataframe].

    Python strings are modelled as [String.string] over ASCII characters.
    The compiled patterns [date_pattern] (^\d{2}-\d{2}-\d{4}),
    [id_pattern] (\d+) and [money_pattern] (\$) are fixed, so each one is
    embedded as the recogniser it denotes; [\d] and [str.strip] are read on
    the ASCII range. *)

From Stdlib Require Import Ascii String List ZArith Lia Bool.
Import ListNotations.
Local Open Scope bool_scope.

(* ------------------------------------------------------------------ *)
(** ** Character classes and Python string primitives *)

(** [\d] on ASCII input. *)
Definition is_digit (c : ascii) : bool :=
  let n := nat_of_ascii c in (48 <=? n)%nat && (n <=? 57)%nat.

(** [str.isspace] on ASCII input: \t \n \v \f \r, \x1c-\x1f and space. *)
Definition is_space (c : ascii) : bool :=
  let n := nat_of_ascii c in
  ((9 <=? n)%nat && (n <=? 13)%nat) || ((28 <=? n)%nat && (n <=? 32)%nat).

(** [str.lstrip()] *)
Fixpoint lstrip (s : string) : string :=
  match s with
  | EmptyString => EmptyString
  | String c s' => if is_space c then lstrip s' else s
  end.

(** [str.rstrip()] *)
Fixpoint rstrip (s : string) : string :=
  match s with
  | EmptyString => EmptyString
  | String c s' =>
      match rstrip s' with
      | EmptyString => if is_space c then EmptyString else String c EmptyString
      | r => String c r
      end
  end.

(** [str.strip()] *)
Definition strip (s : string) : string := rstrip (lstrip s).

(** Truthiness of a Python string: [if s:]. *)
Definition truthy (s : string) : bool :=
  match s with EmptyString => false | _ => true end.

(** [text.split('\n')]: the first piece and the pieces after it. *)
Fixpoint split_nl (s : string) : string * list string :=
  match s with
  | EmptyString => (EmptyString, [])
  | String c s' =>
      let (l, ls) := split_nl s' in
      if Ascii.eqb c "010"%char then (EmptyString, l :: ls) else (String c l, ls)
  end.

Definition split_lines (s : string) : list string :=
  let (l, ls) := split_nl s in l :: ls.

(** Python slices with non-negative bounds, [s[i:j]] and [s[i:]];
    [substring] clamps out-of-range bounds as Python does. *)
Definition py_slice (s : string) (i j : nat) : string := substring i (j - i) s.
Definition py_drop (s : string) (i : nat) : string := substring i (String.length s - i) s.

(** [s[:i]] for an integer [i], negative indices counting from the end. *)
Definition py_slice_to (s : string) (i : Z) : string :=
  if (i <? 0)%Z then substring 0 (Z.to_nat (Z.of_nat (String.length s) + i)) s
  else substring 0 (Z.to_nat i) s.

(** [s.rfind(sub)]: the last index at which [sub] occurs, or -1. *)
Fixpoint rfind_from (s sub : string) (i : Z) : Z :=
  match s with
  | EmptyString => if prefix sub EmptyString then i else (-1)%Z
  | String _ s' =>
      let r := rfind_from s' sub (i + 1) in
      if (0 <=? r)%Z then r else if prefix sub s then i else (-1)%Z
  end.

Definition rfind (s sub : string) : Z := rfind_from s sub 0.

(** [s.index(c)] for a one-character [c], [None] when [c not in s]. *)
Fixpoint index_char (c : ascii) (s : string) : option nat :=
  match s with
  | EmptyString => None
  | String d s' =>
      if Ascii.eqb d c then Some 0
      else match index_char c s' with Some k => Some (S k) | None => None end
  end.

(** [s.replace(c, new)] for a one-character [c]. *)
Fixpoint replace_char (c : ascii) (new s : string) : string :=
  match s with
  | EmptyString => EmptyString
  | String d s' =>
      if Ascii.eqb d c then append new (replace_char c new s')
      else String d (replace_char c new s')
  end.

(** [xs[-1]], [None] on the empty list. *)
Fixpoint last_opt {A} (xs : list A) : option A :=
  match xs with
  | [] => None
  | [x] => Some x
  | _ :: xs' => last_opt xs'
  end.

(* ------------------------------------------------------------------ *)
(** ** The compiled patterns *)

(** [date_pattern.match(s)] / [date_pattern.search(s)]: the pattern is
    anchored with [^] and compiled without MULTILINE, so both only match
    at position 0. The result is [group(0)]; its [end()] is its length. *)
Definition date_match (s : string) : option string :=
  match s with
  | String d1 (String d2 (String h1 (String m1 (String m2 (String h2
      (String y1 (String y2 (String y3 (String y4 _))))))))) =>
      if is_digit d1 && is_digit d2 && Ascii.eqb h1 "-"%char
         && is_digit m1 && is_digit m2 && Ascii.eqb h2 "-"%char
         && is_digit y1 && is_digit y2 && is_digit y3 && is_digit y4
      then Some (substring 0 10 s) else None
  | _ => None
  end.

(** [m.start() for m in money_pattern.finditer(s)], offset by [i]. *)
Fixpoint money_positions_from (s : string) (i : nat) : list nat :=
  match s with
  | EmptyString => []
  | String c s' =>
      if Ascii.eqb c "$"%char then i :: money_positions_from s' (S i)
      else money_positions_from s' (S i)
  end.

Definition money_matches (s : string) : list nat := money_positions_from s 0.

(** [id_pattern.findall(s)]: the maximal runs of digits, left to right. *)
Fixpoint digit_runs (s : string) : list string :=
  match s with
  | EmptyString => []
  | String c s' =>
      let r := digit_runs s' in
      if is_digit c then
        match s' with
        | String c2 _ =>
            if is_digit c2 then
              match r with
              | x :: xs => String c x :: xs
              | [] => [String c EmptyString]
              end
            else String c EmptyString :: r
        | EmptyString => [String c EmptyString]
        end
      else r
  end.

(* ------------------------------------------------------------------ *)
(** ** Value normalizer *)

Definition convert_money_to_number (money_str : string) : string :=
  strip (replace_char ","%char "."
           (replace_char "."%char "" (replace_char "$"%char "" money_str))).

Definition clean_balance (balance_str : string) : string :=
  match index_char "."%char balance_str with
  | Some decimal_pos =>
      if (decimal_pos + 3 <? String.length balance_str)%nat
      then substring 0 (decimal_pos + 3) balance_str
      else balance_str
  | None => balance_str
  end.

(* ------------------------------------------------------------------ *)
(** ** Field extractor *)

(** The list [[date, description, operation_id, value, balance]]. *)
Record fields := mk_fields {
  f_date : string;
  f_description : string;
  f_operation_id : string;
  f_value : string;
  f_balance : string
}.

Definition extract_fields_from_line (line : string) : option fields :=
  match date_match line with
  | None => None
  | Some date =>
      let rest_of_line := strip (py_drop line (String.length date)) in
      match money_matches rest_of_line with
      | first_money :: second_money :: _ =>
          let before_money := strip (py_slice rest_of_line 0 first_money) in
          let value_str := strip (py_slice rest_of_line first_money second_money) in
          let balance_str := strip (py_drop rest_of_line second_money) in
          match last_opt (digit_runs before_money) with
          | None => None
          | Some operation_id =>
              let description :=
                strip (py_slice_to before_money (rfind before_money operation_id)) in
              let value := convert_money_to_number value_str in
              let balance := clean_balance (convert_money_to_number balance_str) in
              Some (mk_fields date description operation_id value balance)
          end
      | _ => None
      end
  end.

(* ------------------------------------------------------------------ *)
(** ** Line reconstructor *)

Record cstate := mk_cstate {
  combined_lines : list string;
  current_line : string
}.

(** One iteration of the [for line in lines] loop. *)
Definition combine_step (st : cstate) (line : string) : cstate :=
  match date_match line with
  | Some _ =>
      mk_cstate
        (if truthy (current_line st)
         then combined_lines st ++ [strip (current_line st)]
         else combined_lines st)
        line
  | None =>
      mk_cstate (combined_lines st) (append (current_line st) (append " " line))
  end.

(** The final flush after the loop. *)
Definition combine_finish (st : cstate) : list string :=
  if truthy (current_line st)
  then combined_lines st ++ [strip (current_line st)]
  else combined_lines st.

Definition combine_lines (lines : list string) : list string :=
  combine_finish (fold_left combine_step lines (mk_cstate [] EmptyString)).

Definition combine_broken_lines (text : string) : list string :=
  combine_lines (split_lines text).

(* ------------------------------------------------------------------ *)
(** ** Pipeline *)

(** One iteration of the loop of [pdf_text_to_dataframe]: a returned list
    of five strings is always truthy. *)
Definition collect_step (data : list fields) (line : string) : list fields :=
  match extract_fields_from_line line with
  | Some fs => data ++ [fs]
  | None => data
  end.

Definition collect_records (lines : list string) : list fields :=
  fold_left collect_step lines [].

(** The rows of the DataFrame built by [pdf_text_to_dataframe]. *)
Definition pdf_text_to_dataframe (text : string) : list fields :=
  collect_records (combine_broken_lines text).

Definition nl : string := String "010"%char EmptyString.

(* ------------------------------------------------------------------ *)
(** ** File handling around the parser *)

(** [read_pdf_text]: the text assembled from the page texts returned by
    [page.get_text()], in page order; a page with empty text is skipped.
    Opening the file and the exception path are left out. *)
Definition read_pdf_text (page_texts : list string) : string :=
  fold_left (fun text page_text =>
               if truthy page_text then append text (append page_text nl) else text)
            page_texts EmptyString.

(** [process_single_file]: parse one extracted text. *)
Definition process_single_file (text : string) : list fields :=
  pdf_text_to_dataframe text.

(** The part of [process_uploaded_files] that decides whether there is
    anything to convert, and the rows of [consolidated_df]. Each uploaded
    file is given by the result of [read_pdf_text] on it, [None] when it
    could not be read (or writing its temporary copy failed). [None] is the
    early [return {}]. [executor.map] keeps the order of [texts] and
    [pd.concat(..., ignore_index=True)] appends the frames in order. *)
Definition consolidated_rows (uploaded : list (option string)) : option (list fields) :=
  match uploaded with
  | [] => None
  | _ =>
      let texts :=
        fold_left (fun acc t =>
                     match t with
                     | Some text => if truthy text then acc ++ [text] else acc
                     | None => acc
                     end) uploaded [] in
      let total_lines :=
        fold_left (fun n text => n + length (split_lines text)) texts 0 in
      if (total_lines =? 0)%nat then None
      else Some (concat (map process_single_file texts))
  end.

(** The character class of [sanitize_filename]: backslash, slash,
    asterisk, question mark, colon, double quote (code 34), less-than,
    greater-than and vertical bar. *)
Definition forbidden_char (c : ascii) : bool :=
  existsb (Ascii.eqb c)
    ["092"; "/"; "*"; "?"; ":"; "034"; "<"; ">"; "|"]%char.

(** [re.sub] with that class and an empty replacement. *)
Fixpoint remove_forbidden (s : string) : string :=
  match s with
  | EmptyString => EmptyString
  | String c s' =>
      if forbidden_char c then remove_forbidden s' else String c (remove_forbidden s')
  end.

Definition sanitize_filename (filename : string) : string :=
  replace_char " "%char "_" (remove_forbidden filename).


(* ------------------------------------------------------------------ *)
(** ** Observations used to state the properties *)

(** Right fold over the characters of a string. *)
Fixpoint sfold {B} (step : ascii -> B -> B) (base : B) (s : string) : B :=
  match s with
  | EmptyString => base
  | String c s' => step c (sfold step base s')
  end.

(** Number of ['$'] markers in [s]. *)
Definition count_money (s : string) : nat :=
  sfold (fun c n => if Ascii.eqb c "$"%char then S n else n) 0 s.

(** A digit occurs in [s] before its first ['$'] (anywhere, if none). *)
Definition digit_before_money (s : string) : bool :=
  sfold (fun c b => if Ascii.eqb c "$"%char then false
                    else if is_digit c then true else b) false s.

Definition has_digit (s : string) : bool :=
  sfold (fun c b => is_digit c || b) false s.

Definition has_char (d : ascii) (s : string) : bool :=
  sfold (fun c b => Ascii.eqb c d || b) false s.

(** [sub in s]. *)
Fixpoint occurs_b (sub s : string) : bool :=
  prefix sub s ||
  match s with
  | EmptyString => false
  | String _ s' => occurs_b sub s'
  end.

(** The normalisation as the spec words it, one character at a time:
    ['$'] and ['.'] are dropped and [','] becomes ['.']. *)
Definition money_char (c : ascii) : string :=
  if Ascii.eqb c "$"%char then EmptyString
  else if Ascii.eqb c "."%char then EmptyString
  else if Ascii.eqb c ","%char then "."
  else String c EmptyString.

Fixpoint money_text_spec (s : string) : string :=
  match s with
  | EmptyString => EmptyString
  | String c s' => append (money_char c) (money_text_spec s')
  end.

(** At most two characters follow the first ['.'] of [s]. *)
Definition at_most_two_decimals (s : string) : Prop :=
  forall k, index_char "."%char s = Some k -> String.length s <= k + 3.

(** A list of raw lines that is empty or starts with a date line. *)
Definition starts_record (lines : list string) : Prop :=
  match lines with
  | [] => True
  | l :: _ => date_match l <> None
  end.

(** The accumulator built from [""] by continuation lines only. *)
Definition join_continuations (pre : list string) : string :=
  fold_left (fun acc l => append acc (append " " l)) pre EmptyString.

(** All substrings of [s] of length [n] or more. *)
Fixpoint prefixes (s : string) : list string :=
  match s with
  | EmptyString => [EmptyString]
  | String c s' => EmptyString :: map (String c) (prefixes s')
  end.

Fixpoint substrings (s : string) : list string :=
  match s with
  | EmptyString => [EmptyString]
  | String _ s' => prefixes s ++ substrings s'
  end.

Definition long_parts (n : nat) (s : string) : list string :=
  filter (fun p => n <=? String.length p) (substrings s).

Definition field_list (r : fields) : list string :=
  [f_date r; f_description r; f_operation_id r; f_value r; f_balance r].

(** Every character of [s] is a digit. *)
Definition all_digits (s : string) : bool :=
  sfold (fun c b => is_digit c && b) true s.

(** Number of raw lines that start with a date. *)
Definition count_date_lines (lines : list string) : nat :=
  length (filter (fun l => match date_match l with Some _ => true | None => false end) lines).

(** [1] when the first raw line is not a date line. *)
Definition leading_continuation (lines : list string) : nat :=
  match lines with
  | l :: _ => match date_match l with Some _ => 0 | None => 1 end
  | [] => 0
  end.

(** A logical line without newline and without surrounding whitespace. *)
Definition clean_logical (l : string) : Prop :=
  has_char "010"%char l = false /\ strip l = l.

(** A page text that is empty or whose first raw line is a date line. *)
Definition page_starts_record (p : string) : Prop :=
  truthy p = true -> date_match (hd EmptyString (split_lines p)) <> None.


(* ================================================================== *)
(** * Lemmas *)

(** ** Strings *)

Lemma substring_0_full : forall s, substring 0 (String.length s) s = s.
Proof. induction s; simpl; congruence. Qed.

Lemma substring_0_length : forall s n,
  n <= String.length s -> String.length (substring 0 n s) = n.
Proof.
  induction s; intros [|n] H; simpl in *; try lia; auto.
  f_equal. apply IHs. lia.
Qed.

Lemma substring_0_shorter : forall s n,
  String.length (substring 0 n s) <= String.length s.
Proof. induction s; intros [|n]; simpl; try lia. specialize (IHs n). lia. Qed.

Lemma prefix_length : forall sub s,
  prefix sub s = true -> String.length sub <= String.length s.
Proof.
  induction sub; intros [|d s] H; simpl in *; try lia; try discriminate.
  destruct (ascii_dec a d); [|discriminate]. apply IHsub in H. lia.
Qed.

Lemma index_char_substring : forall c s k n,
  index_char c s = Some k -> k < n -> index_char c (substring 0 n s) = Some k.
Proof.
  induction s; intros k n H Hk; simpl in *; [discriminate|].
  destruct n as [|n]; [lia|]. simpl.
  destruct (Ascii.eqb a c); [exact H|].
  destruct (index_char c s) as [k'|] eqn:E; [|discriminate].
  injection H as <-. rewrite (IHs k' n); auto. lia.
Qed.

Lemma index_char_bound : forall c s k,
  index_char c s = Some k -> k < String.length s.
Proof.
  induction s; intros k H; simpl in *; [discriminate|].
  destruct (Ascii.eqb a c); [injection H as <-; lia|].
  destruct (index_char c s) eqn:E; [|discriminate].
  injection H as <-. specialize (IHs _ eq_refl). lia.
Qed.

Lemma append_assoc_s : forall a b c,
  append (append a b) c = append a (append b c).
Proof. induction a; intros; simpl; congruence. Qed.

Lemma replace_char_append : forall c new a b,
  replace_char c new (append a b) = append (replace_char c new a) (replace_char c new b).
Proof.
  induction a; intros b; simpl; [reflexivity|].
  destruct (Ascii.eqb a c); rewrite IHa; [|reflexivity].
  rewrite append_assoc_s. reflexivity.
Qed.

(** ** Folds that ignore whitespace are unchanged by [strip] *)

Section StripInvariance.
Context {B : Type} (step : ascii -> B -> B) (base : B).
Hypothesis step_space : forall c x, is_space c = true -> step c x = x.

Lemma sfold_lstrip : forall s, sfold step base (lstrip s) = sfold step base s.
Proof.
  induction s as [|c s IH]; simpl; [reflexivity|].
  destruct (is_space c) eqn:E; simpl; [rewrite step_space by exact E|]; auto.
Qed.

Lemma sfold_rstrip : forall s, sfold step base (rstrip s) = sfold step base s.
Proof.
  induction s as [|c s IH]; simpl; [reflexivity|].
  destruct (rstrip s) as [|d r] eqn:E.
  - simpl in IH. destruct (is_space c) eqn:Ec; simpl.
    + rewrite step_space by exact Ec. auto.
    + rewrite <- IH. reflexivity.
  - simpl in *. rewrite IH. reflexivity.
Qed.

Lemma sfold_strip : forall s, sfold step base (strip s) = sfold step base s.
Proof. intro s. unfold strip. rewrite sfold_rstrip. apply sfold_lstrip. Qed.
End StripInvariance.

Lemma space_not_dollar : forall c, is_space c = true -> Ascii.eqb c "$"%char = false.
Proof.
  intros c H. destruct (Ascii.eqb_spec c "$"%char); [subst; discriminate | reflexivity].
Qed.

Lemma space_not_digit : forall c, is_space c = true -> is_digit c = false.
Proof.
  intros c H. unfold is_space, is_digit in *. set (n := nat_of_ascii c) in *.
  destruct (Nat.leb_spec 48 n), (Nat.leb_spec n 57), (Nat.leb_spec 9 n),
    (Nat.leb_spec n 13), (Nat.leb_spec 28 n), (Nat.leb_spec n 32);
    simpl in *; try reflexivity; try discriminate; lia.
Qed.

Lemma count_money_strip : forall s, count_money (strip s) = count_money s.
Proof.
  intro s. apply sfold_strip. intros c x H. rewrite space_not_dollar; auto.
Qed.

Lemma digit_before_money_strip : forall s,
  digit_before_money (strip s) = digit_before_money s.
Proof.
  intro s. apply sfold_strip. intros c x H.
  rewrite space_not_dollar, space_not_digit; auto.
Qed.

Lemma has_digit_strip : forall s, has_digit (strip s) = has_digit s.
Proof.
  intro s. apply sfold_strip. intros c x H. rewrite space_not_digit; auto.
Qed.

Lemma has_char_strip : forall d s, is_space d = false ->
  has_char d (strip s) = has_char d s.
Proof.
  intros d s Hd. apply sfold_strip. intros c x H.
  destruct (Ascii.eqb_spec c d); [subst; congruence | reflexivity].
Qed.

(** ** Positions of the currency marker *)

Lemma money_positions_ge : forall s i p,
  In p (money_positions_from s i) -> i <= p < i + String.length s.
Proof.
  induction s as [|c s IH]; intros i p H; simpl in *; [contradiction|].
  destruct (Ascii.eqb c "$"%char); [destruct H as [<-|H]; [lia|]|];
  apply IH in H; lia.
Qed.

Lemma money_positions_sorted : forall s i p1 p2 ps,
  money_positions_from s i = p1 :: p2 :: ps -> p1 < p2.
Proof.
  induction s as [|c s IH]; intros i p1 p2 ps H; simpl in *; [discriminate|].
  destruct (Ascii.eqb c "$"%char); [|eauto].
  injection H as <- H. assert (In p2 (money_positions_from s (S i))) by (rewrite H; left; auto).
  apply money_positions_ge in H0. lia.
Qed.

Lemma money_positions_length : forall s i,
  length (money_positions_from s i) = count_money s.
Proof.
  induction s as [|c s IH]; intros i; simpl; [reflexivity|].
  unfold count_money in *; simpl.
  destruct (Ascii.eqb c "$"%char); simpl; rewrite IH; reflexivity.
Qed.

Lemma money_positions_first_digit : forall s i p ps,
  money_positions_from s i = p :: ps ->
  has_digit (substring 0 (p - i) s) = digit_before_money s.
Proof.
  induction s as [|c s IH]; intros i p ps H; simpl in *; [discriminate|].
  unfold digit_before_money, has_digit in *; simpl.
  destruct (Ascii.eqb c "$"%char) eqn:Ed.
  - injection H as <- _. rewrite Nat.sub_diag. reflexivity.
  - assert (Hp : S i <= p) by
      (apply (money_positions_ge s (S i) p); rewrite H; left; auto).
    replace (p - i) with (S (p - S i)) by lia. simpl.
    rewrite (IH (S i) p ps H). destruct (is_digit c); reflexivity.
Qed.

Lemma py_drop_cons : forall c s k, py_drop (String c s) (S k) = py_drop s k.
Proof. reflexivity. Qed.

Lemma py_drop_0 : forall s, py_drop s 0 = s.
Proof. intro s. unfold py_drop. rewrite Nat.sub_0_r. apply substring_0_full. Qed.

(** From a marker on, the rest of the string holds that marker and the
    ones after it. *)
Lemma count_money_from_marker : forall s i pre p ps,
  money_positions_from s i = pre ++ p :: ps ->
  count_money (py_drop s (p - i)) = S (length ps).
Proof.
  induction s as [|c s IH]; intros i pre p ps H; simpl in *.
  - destruct pre; discriminate.
  - destruct (Ascii.eqb c "$"%char) eqn:Ed; destruct pre as [|q pre].
    + injection H as <- H. rewrite Nat.sub_diag, py_drop_0.
      unfold count_money; simpl; rewrite Ed. f_equal.
      rewrite <- H. symmetry. apply money_positions_length.
    + injection H as <- H.
      assert (Hp : S i <= p) by
        (apply (money_positions_ge s (S i) p); rewrite H; apply in_or_app; right; left; auto).
      replace (p - i) with (S (p - S i)) by lia. rewrite py_drop_cons. eauto.
    + assert (Hp : S i <= p) by
        (apply (money_positions_ge s (S i) p); rewrite H; left; auto).
      replace (p - i) with (S (p - S i)) by lia. rewrite py_drop_cons.
      apply (IH (S i) []). exact H.
    + assert (Hp : S i <= p) by
        (apply (money_positions_ge s (S i) p); rewrite H; right; apply in_or_app; right; left; auto).
      replace (p - i) with (S (p - S i)) by lia. rewrite py_drop_cons.
      apply (IH (S i) (q :: pre)). exact H.
Qed.

(** ** Digit runs *)

Lemma digit_runs_nil : forall s, digit_runs s = [] <-> has_digit s = false.
Proof.
  induction s as [|c s IH]; simpl; [tauto|].
  unfold has_digit in *; simpl. fold (has_digit s) in *.
  destruct (is_digit c) eqn:Ec; simpl.
  - split; [|discriminate]. destruct s as [|c2 t]; [discriminate|].
    destruct (is_digit c2), (digit_runs (String c2 t)); discriminate.
  - exact IH.
Qed.

Lemma digit_runs_cons : forall c s, digit_runs (String c s) =
  if is_digit c then
    match s with
    | String c2 _ =>
        if is_digit c2 then
          match digit_runs s with
          | x :: xs => String c x :: xs
          | [] => [String c EmptyString]
          end
        else String c EmptyString :: digit_runs s
    | EmptyString => [String c EmptyString]
    end
  else digit_runs s.
Proof. reflexivity. Qed.

(** The first run of a string that starts with a digit is a prefix of it. *)
Lemma digit_runs_head_prefix : forall t c x xs,
  is_digit c = true -> digit_runs (String c t) = x :: xs -> prefix x (String c t) = true.
Proof.
  induction t as [|c2 t IH]; intros c x xs Hc H; rewrite digit_runs_cons, Hc in H.
  - injection H as <- _. simpl. destruct (ascii_dec c c); congruence.
  - destruct (is_digit c2) eqn:E2.
    + destruct (digit_runs (String c2 t)) as [|y ys] eqn:Er.
      * injection H as <- _. simpl. destruct (ascii_dec c c); congruence.
      * injection H as <- _. simpl. destruct (ascii_dec c c); [|congruence].
        eapply IH; eauto.
    + injection H as <- _. simpl. destruct (ascii_dec c c); congruence.
Qed.

Lemma prefix_occurs : forall x s, prefix x s = true -> occurs_b x s = true.
Proof. intros x s H. destruct s; unfold occurs_b; rewrite H; reflexivity. Qed.

Lemma digit_runs_occur : forall s x,
  In x (digit_runs s) -> occurs_b x s = true /\ x <> EmptyString.
Proof.
  induction s as [|c s IH]; intros x H; [contradiction|]. rewrite digit_runs_cons in H.
  assert (Hsub : occurs_b x s = true -> occurs_b x (String c s) = true)
    by (intro E; simpl; rewrite E; apply orb_true_r).
  assert (Hone : prefix (String c EmptyString) (String c s) = true)
    by (simpl; destruct (ascii_dec c c); [destruct s; reflexivity|congruence]).
  destruct (is_digit c) eqn:Ec; [|destruct (IH x H); auto].
  destruct s as [|c2 t].
  - destruct H as [<-|[]]. split; [apply prefix_occurs; exact Hone|discriminate].
  - destruct (is_digit c2) eqn:E2.
    + destruct (digit_runs (String c2 t)) as [|y ys] eqn:Er.
      * destruct H as [<-|[]]. split; [apply prefix_occurs; exact Hone|discriminate].
      * destruct H as [<-|H].
        -- split; [|discriminate]. apply prefix_occurs.
           replace (prefix (String c y) (String c (String c2 t)))
             with (prefix y (String c2 t))
             by (simpl; destruct (ascii_dec c c); congruence).
           erewrite digit_runs_head_prefix; eauto.
        -- destruct (IH x (or_intror H)); auto.
    + destruct H as [<-|H].
      * split; [apply prefix_occurs; exact Hone|discriminate].
      * destruct (IH x H); auto.
Qed.

Lemma last_opt_In : forall {A} (xs : list A) x, last_opt xs = Some x -> In x xs.
Proof.
  intros A xs. induction xs as [|a xs IH]; intros x H; simpl in *; [discriminate|].
  destruct xs as [|b xs]; [injection H as <-; auto|]. right. auto.
Qed.

Lemma last_opt_None : forall {A} (xs : list A), last_opt xs = None <-> xs = [].
Proof.
  intros A xs. induction xs as [|a xs IH]; simpl; [tauto|].
  destruct xs; [split; discriminate|]. rewrite IH. split; discriminate.
Qed.

(** ** [rfind] *)

Lemma rfind_from_range : forall s sub i, (0 <= i)%Z ->
  rfind_from s sub i = (-1)%Z \/
  ((i <= rfind_from s sub i)%Z /\
   (rfind_from s sub i + Z.of_nat (String.length sub) <= i + Z.of_nat (String.length s))%Z).
Proof.
  induction s as [|c s IH]; intros sub i Hi; cbn [rfind_from].
  - destruct (prefix sub EmptyString) eqn:E; [|auto].
    apply prefix_length in E. simpl in E. right. lia.
  - destruct (IH sub (i + 1)%Z) as [E|[E1 E2]]; [lia| |].
    + rewrite E. destruct (prefix sub (String c s)) eqn:P; simpl; [|auto].
      apply prefix_length in P. simpl in P. right. lia.
    + destruct (0 <=? rfind_from s sub (i + 1))%Z eqn:Z0; [|apply Z.leb_gt in Z0; lia].
      right. cbn [String.length]. lia.
Qed.

Lemma rfind_from_found : forall s sub i, (0 <= i)%Z ->
  occurs_b sub s = true -> (0 <= rfind_from s sub i)%Z.
Proof.
  induction s as [|c s IH]; intros sub i Hi H; cbn [rfind_from occurs_b] in *.
  - rewrite orb_false_r in H. rewrite H. lia.
  - destruct (0 <=? rfind_from s sub (i + 1))%Z eqn:Z0; [apply Z.leb_le; exact Z0|].
    apply orb_true_iff in H. destruct H as [H|H]; [rewrite H; lia|].
    specialize (IH sub (i + 1)%Z ltac:(lia) H). apply Z.leb_gt in Z0. lia.
Qed.

(** [before_money.rfind(operation_id)] lands inside [before_money]
    whenever [operation_id] is one of its digit runs. *)
Lemma rfind_digit_run : forall b x, In x (digit_runs b) ->
  (0 <= rfind b x)%Z /\
  (rfind b x + Z.of_nat (String.length x) <= Z.of_nat (String.length b))%Z.
Proof.
  intros b x H. apply digit_runs_occur in H as [H _]. unfold rfind.
  pose proof (rfind_from_found b x 0 ltac:(lia) H).
  destruct (rfind_from_range b x 0 ltac:(lia)) as [E|[E1 E2]]; lia.
Qed.

(** ** The reconstruction loop *)

Lemma combine_step_mk : forall acc cur line,
  combine_step (mk_cstate acc cur) line =
  match date_match line with
  | Some _ => mk_cstate (if truthy cur then acc ++ [strip cur] else acc) line
  | None => mk_cstate acc (append cur (append " " line))
  end.
Proof. reflexivity. Qed.

(** The lines already flushed never influence the rest of the loop. *)
Lemma combine_fold_acc : forall l acc cur,
  fold_left combine_step l (mk_cstate acc cur) =
  mk_cstate (acc ++ combined_lines (fold_left combine_step l (mk_cstate [] cur)))
            (current_line (fold_left combine_step l (mk_cstate [] cur))).
Proof.
  induction l as [|line l IH]; intros acc cur; simpl.
  - rewrite app_nil_r. reflexivity.
  - rewrite !combine_step_mk.
    destruct (date_match line).
    + destruct (truthy cur); simpl.
      * rewrite (IH (acc ++ [strip cur])), (IH [strip cur]). simpl.
        rewrite <- app_assoc. reflexivity.
      * rewrite (IH acc). reflexivity.
    + rewrite IH, (IH []). reflexivity.
Qed.

Lemma combine_finish_acc : forall acc st,
  combine_finish (mk_cstate (acc ++ combined_lines st) (current_line st)) =
  acc ++ combine_finish st.
Proof.
  intros acc [xs cur]. unfold combine_finish; simpl.
  destruct (truthy cur); [rewrite app_assoc|]; reflexivity.
Qed.

(** Reconstruction distributes over a split before a date line. *)
Lemma combine_lines_app : forall l1 l2, starts_record l2 ->
  combine_lines (l1 ++ l2) = combine_lines l1 ++ combine_lines l2.
Proof.
  intros l1 [|d l2] H.
  { change (combine_lines []) with (@nil string). rewrite !app_nil_r. reflexivity. }
  simpl in H. unfold combine_lines. rewrite fold_left_app.
  destruct (fold_left combine_step l1 (mk_cstate [] EmptyString)) as [A c].
  cbn [fold_left]. rewrite !combine_step_mk.
  destruct (date_match d) as [dd|]; [|congruence].
  cbn [truthy]. rewrite combine_fold_acc, combine_finish_acc.
  f_equal.
Qed.

(** Before the first date line the loop only extends the accumulator. *)
Lemma combine_fold_continuations : forall pre cur,
  Forall (fun l => date_match l = None) pre ->
  fold_left combine_step pre (mk_cstate [] cur) =
  mk_cstate [] (fold_left (fun acc l => append acc (append " " l)) pre cur).
Proof.
  induction pre as [|l pre IH]; intros cur H; simpl; [reflexivity|].
  inversion H as [|? ? Hl Hpre]; subst.
  rewrite combine_step_mk, Hl. apply IH. exact Hpre.
Qed.

Lemma join_truthy : forall pre cur, pre <> [] ->
  truthy (fold_left (fun acc l => append acc (append " " l)) pre cur) = true.
Proof.
  induction pre as [|l pre IH]; intros cur H; [congruence|]. simpl.
  destruct pre as [|l' pre].
  - simpl. destruct cur; reflexivity.
  - apply IH. discriminate.
Qed.

Lemma split_nl_app : forall t1 t2,
  split_nl (append t1 (append nl t2)) =
  (fst (split_nl t1), snd (split_nl t1) ++ split_lines t2).
Proof.
  induction t1 as [|c t1 IH]; intros t2; cbn [append split_nl fst snd].
  - unfold split_lines. simpl. destruct (split_nl t2). reflexivity.
  - rewrite IH. destruct (split_nl t1) as [a r]. simpl.
    destruct (Ascii.eqb c "010"%char); reflexivity.
Qed.

Lemma split_lines_app : forall t1 t2,
  split_lines (append t1 (append nl t2)) = split_lines t1 ++ split_lines t2.
Proof.
  intros t1 t2. unfold split_lines at 1. rewrite split_nl_app.
  unfold split_lines at 2. destruct (split_nl t1). reflexivity.
Qed.

(** ** The record loop *)

Lemma collect_acc : forall l acc,
  fold_left collect_step l acc = acc ++ fold_left collect_step l [].
Proof.
  induction l as [|line l IH]; intros acc; simpl; [rewrite app_nil_r; reflexivity|].
  assert (Hs : forall data, collect_step data line =
            match extract_fields_from_line line with
            | Some fs => data ++ [fs] | None => data end) by reflexivity.
  rewrite !Hs. destruct (extract_fields_from_line line) as [fs|]; simpl.
  - rewrite IH, (IH [fs]). rewrite app_assoc. reflexivity.
  - apply IH.
Qed.

Lemma collect_records_app : forall l1 l2,
  collect_records (l1 ++ l2) = collect_records l1 ++ collect_records l2.
Proof.
  intros l1 l2. unfold collect_records. rewrite fold_left_app. apply collect_acc.
Qed.

(** ** Date lines *)

Lemma substring_0_0 : forall s, substring 0 0 s = EmptyString.
Proof. intros []; reflexivity. Qed.

Lemma lstrip_nonspace : forall c s, is_space c = false -> lstrip (String c s) = String c s.
Proof. intros c s H. simpl. rewrite H. reflexivity. Qed.

Lemma rstrip_nonspace : forall c s, is_space c = false ->
  rstrip (String c s) = String c (rstrip s).
Proof. intros c s H. simpl. destruct (rstrip s); [rewrite H|]; reflexivity. Qed.

Lemma digit_not_space : forall c, is_digit c = true -> is_space c = false.
Proof.
  intros c H. destruct (is_space c) eqn:E; [|reflexivity].
  rewrite space_not_digit in H; auto.
Qed.

Lemma dash_not_space : forall c, Ascii.eqb c "-"%char = true -> is_space c = false.
Proof. intros c H. apply Ascii.eqb_eq in H. subst. reflexivity. Qed.

Lemma date_match_append : forall s t d,
  date_match s = Some d -> date_match (append s t) = Some d.
Proof.
  intros s t d H.
  do 10 (destruct s as [|?c s]; [discriminate H|]).
  simpl in H |- *. rewrite substring_0_0 in *. exact H.
Qed.

Lemma date_match_strip : forall s d,
  date_match s = Some d -> date_match (strip s) = Some d.
Proof.
  intros s d H.
  do 10 (destruct s as [|?c s]; [discriminate H|]).
  cbn [date_match] in H.
  match type of H with (if ?b then _ else _) = _ => destruct b eqn:Hb; [|discriminate] end.
  repeat rewrite andb_true_iff in Hb.
  destruct Hb as [[[[[[[[[H1 H2] H3] H4] H5] H6] H7] H8] H9] H10].
  unfold strip. rewrite lstrip_nonspace by (apply digit_not_space; exact H1).
  rewrite !rstrip_nonspace by (first [apply digit_not_space; assumption | apply dash_not_space; assumption]).
  cbn [date_match]. rewrite H1, H2, H3, H4, H5, H6, H7, H8, H9, H10. simpl in H |- *.
  rewrite !substring_0_0 in *. exact H.
Qed.

Lemma combine_dated_from : forall l acc cur,
  date_match cur <> None -> Forall (fun x => date_match x <> None) acc ->
  Forall (fun x => date_match x <> None)
         (combine_finish (fold_left combine_step l (mk_cstate acc cur))).
Proof.
  induction l as [|line l IH]; intros acc cur Hc Hacc; simpl.
  - unfold combine_finish; simpl. destruct (truthy cur); [|exact Hacc].
    apply Forall_app; split; [exact Hacc|]. constructor; [|constructor].
    destruct (date_match cur) eqn:E; [|congruence].
    rewrite (date_match_strip _ _ E). discriminate.
  - rewrite combine_step_mk. destruct (date_match line) eqn:El.
    + apply IH; [congruence|]. destruct (truthy cur); [|exact Hacc].
      apply Forall_app; split; [exact Hacc|]. constructor; [|constructor].
      destruct (date_match cur) eqn:E; [|congruence].
      rewrite (date_match_strip _ _ E). discriminate.
    + apply IH; [|exact Hacc].
      destruct (date_match cur) eqn:E; [|congruence].
      rewrite (date_match_append _ _ _ E). discriminate.
Qed.

Lemma combine_lines_dated : forall rest, starts_record rest ->
  Forall (fun x => date_match x <> None) (combine_lines rest).
Proof.
  intros [|d rest] H; [constructor|]. simpl in H. unfold combine_lines.
  cbn [fold_left]. rewrite combine_step_mk.
  destruct (date_match d) eqn:E; [|congruence].
  apply combine_dated_from; [congruence|]. simpl. constructor.
Qed.

Lemma collect_records_single_none : forall line,
  extract_fields_from_line line = None -> collect_records [line] = [].
Proof. intros line H. unfold collect_records, collect_step. simpl. rewrite H. reflexivity. Qed.

(** ** Value normalizer *)

Lemma convert_three_passes : forall s,
  replace_char ","%char "." (replace_char "."%char "" (replace_char "$"%char "" s)) =
  money_text_spec s.
Proof.
  induction s as [|c s IH]; [reflexivity|].
  cbn [replace_char money_text_spec]. unfold money_char.
  destruct (Ascii.eqb c "$"%char); [exact IH|]. cbn [replace_char].
  destruct (Ascii.eqb c "."%char); [exact IH|]. cbn [replace_char].
  destruct (Ascii.eqb c ","%char); cbn [append]; rewrite IH; reflexivity.
Qed.

Lemma has_char_append : forall d a b,
  has_char d (append a b) = has_char d a || has_char d b.
Proof.
  intros d a b. induction a as [|c a IH]; [reflexivity|].
  unfold has_char in *; simpl. rewrite IH, orb_assoc. reflexivity.
Qed.

Lemma has_char_money_text_spec : forall d s,
  d = "$"%char \/ d = ","%char -> has_char d (money_text_spec s) = false.
Proof.
  intros d s Hd. induction s as [|c s IH]; [reflexivity|].
  simpl. rewrite has_char_append, IH, orb_false_r. unfold money_char.
  destruct (Ascii.eqb_spec c "$"%char); [reflexivity|].
  destruct (Ascii.eqb_spec c "."%char); [reflexivity|].
  destruct (Ascii.eqb_spec c ","%char).
  - destruct Hd; subst; reflexivity.
  - unfold has_char; simpl. rewrite orb_false_r.
    destruct (Ascii.eqb_spec c d); [|reflexivity]. subst. destruct Hd; congruence.
Qed.

Lemma clean_balance_decimals : forall s, at_most_two_decimals (clean_balance s).
Proof.
  intros s k Hk. unfold clean_balance in *.
  destruct (index_char "."%char s) as [j|] eqn:Ej; [|rewrite Ej in Hk; discriminate].
  destruct (j + 3 <? String.length s)%nat eqn:Elt.
  - apply Nat.ltb_lt in Elt.
    rewrite (index_char_substring _ _ j (j + 3) Ej) in Hk by lia. injection Hk as <-.
    rewrite substring_0_length; lia.
  - apply Nat.ltb_ge in Elt. rewrite Ej in Hk. injection Hk as <-. lia.
Qed.

(** ** Shape of a match *)

Lemma extract_some_shape : forall line r,
  extract_fields_from_line line = Some r ->
  exists rest p1 p2 ps,
    date_match line = Some (f_date r) /\
    rest = strip (py_drop line (String.length (f_date r))) /\
    money_matches rest = p1 :: p2 :: ps /\
    last_opt (digit_runs (strip (py_slice rest 0 p1))) = Some (f_operation_id r) /\
    f_description r =
      strip (py_slice_to (strip (py_slice rest 0 p1))
                         (rfind (strip (py_slice rest 0 p1)) (f_operation_id r))) /\
    f_value r = convert_money_to_number (strip (py_slice rest p1 p2)) /\
    f_balance r = clean_balance (convert_money_to_number (strip (py_drop rest p2))).
Proof.
  intros line r H. unfold extract_fields_from_line in H.
  destruct (date_match line) as [date|] eqn:Ed; [|discriminate].
  destruct (money_matches (strip (py_drop line (String.length date))))
    as [|p1 [|p2 ps]] eqn:Em; try discriminate.
  destruct (last_opt _) as [oid|] eqn:El; [|discriminate].
  injection H as <-. simpl.
  exists (strip (py_drop line (String.length date))), p1, p2, ps.
  repeat split; auto.
Qed.

Lemma date_match_length : forall s d,
  date_match s = Some d -> String.length d = 10 /\ 10 <= String.length s.
Proof.
  intros s d H.
  do 10 (destruct s as [|?c s]; [discriminate H|]).
  cbn [date_match] in H.
  match type of H with (if ?b then _ else _) = _ => destruct b; [|discriminate] end.
  injection H as <-. simpl. rewrite substring_0_0. simpl. lia.
Qed.

(* ================================================================== *)
(** * The claims *)

Local Open Scope string_scope.

(** C1: [extract_fields_from_line] yields no match exactly when the line
    has no leading date, or fewer than two ['$'] follow the date, or no
    digit occurs before the first ['$'] after the date; otherwise it yields
    a record. A line without a match adds no row to the table. *)
Theorem extract_no_match_iff : forall line,
  (extract_fields_from_line line = None <->
   date_match line = None \/
   exists date, date_match line = Some date /\
     (count_money (py_drop line (String.length date)) < 2 \/
      digit_before_money (py_drop line (String.length date)) = false)) /\
  (extract_fields_from_line line = None ->
   forall before after,
     collect_records (before ++ line :: after)%list = collect_records (before ++ after)%list).
Proof.
  intros line. split.
  - unfold extract_fields_from_line.
    destruct (date_match line) as [date|] eqn:Ed; [|split; auto].
    set (after := py_drop line (String.length date)).
    set (rest := strip after).
    assert (Hc : length (money_matches rest) = count_money after)
      by (unfold money_matches, rest; rewrite money_positions_length; apply count_money_strip).
    destruct (money_matches rest) as [|p1 [|p2 ps]] eqn:Em.
    + simpl in Hc. split; [intros _; right; exists date; split; [reflexivity|left; unfold after in Hc; lia]|auto].
    + simpl in Hc. split; [intros _; right; exists date; split; [reflexivity|left; unfold after in Hc; lia]|auto].
    + simpl in Hc.
      assert (Hd : has_digit (strip (py_slice rest 0 p1)) = digit_before_money after).
      { rewrite has_digit_strip. unfold py_slice.
        rewrite (money_positions_first_digit rest 0 p1 (p2 :: ps) Em).
        apply digit_before_money_strip. }
      unfold after in Hc, Hd.
      destruct (last_opt (digit_runs (strip (py_slice rest 0 p1)))) eqn:El.
      * split; [discriminate|].
        intros [H|[date' [H H']]]; [discriminate|].
        injection H as <-. destruct H' as [H'|H']; [lia|].
        assert (digit_runs (strip (py_slice rest 0 p1)) <> []) as Hne
          by (intro E; rewrite E in El; discriminate).
        rewrite <- Hd in H'. apply digit_runs_nil in H'. contradiction.
      * split; [|reflexivity]. intros _. right. exists date. split; [reflexivity|right].
        rewrite <- Hd. apply digit_runs_nil, last_opt_None, El.
  - intros H before after.
    change (line :: after) with ([line] ++ after)%list.
    rewrite !collect_records_app, collect_records_single_none by exact H.
    reflexivity.
Qed.

Lemma extract_no_match_iff_witness :
  extract_fields_from_line "orphan text" = None /\
  collect_records ["orphan text"; "02-03-2024 Compra 111 $10,00$100,00"] =
  collect_records ["02-03-2024 Compra 111 $10,00$100,00"].
Proof.
  split; [reflexivity|].
  exact (proj2 (extract_no_match_iff "orphan text") eq_refl []
           ["02-03-2024 Compra 111 $10,00$100,00"]).
Defined.

(** C2: the spec's end-to-end example line is parsed into the record
    ("01-03-2024", "Pago de servicios", "987654", "1000.00", "5432.10"). *)
Example extract_example_line :
  extract_fields_from_line "01-03-2024 Pago de servicios 987654 $1.000,00$5.432,10" =
  Some (mk_fields "01-03-2024" "Pago de servicios" "987654" "1000.00" "5432.10").
Proof. vm_compute. reflexivity. Qed.

(** C3 (as stated it fails): raw lines before the first date line are not
    dropped by [combine_broken_lines]; "orphan text" becomes a logical line
    of its own, which does not begin with a date. *)
Lemma combine_keeps_orphan_line :
  combine_broken_lines
    (append "orphan text" (append nl "02-03-2024 Compra 111 $10,00$100,00")) =
  ["orphan text"; "02-03-2024 Compra 111 $10,00$100,00"] /\
  date_match "orphan text" = None.
Proof. split; vm_compute; reflexivity. Qed.

(** C3 (amended): the raw lines before the first date line, if any, are
    joined (each after one space, then the whole stripped) into a single
    leading logical line; the lines from the first date line on are
    reconstructed on their own, and each logical line they give begins
    with a date. *)
Theorem combine_pre_date_lines : forall pre rest,
  Forall (fun l => date_match l = None) pre -> starts_record rest ->
  combine_lines (pre ++ rest)%list =
    ((match pre with [] => [] | _ :: _ => [strip (join_continuations pre)] end)
      ++ combine_lines rest)%list /\
  Forall (fun l => date_match l <> None) (combine_lines rest).
Proof.
  intros pre rest Hpre Hrest. split; [|apply combine_lines_dated; exact Hrest].
  rewrite combine_lines_app by exact Hrest. f_equal.
  unfold combine_lines. rewrite combine_fold_continuations by exact Hpre.
  unfold combine_finish; simpl. destruct pre as [|l pre]; [reflexivity|].
  unfold join_continuations. rewrite join_truthy by discriminate. reflexivity.
Qed.

Lemma combine_pre_date_lines_witness :
  Forall (fun l => date_match l = None) ["orphan text"] /\
  starts_record ["02-03-2024 Compra 111 $10,00$100,00"] /\
  combine_lines (["orphan text"] ++ ["02-03-2024 Compra 111 $10,00$100,00"])%list =
    ([strip (join_continuations ["orphan text"])] ++
    combine_lines ["02-03-2024 Compra 111 $10,00$100,00"])%list.
Proof.
  assert (H1 : Forall (fun l => date_match l = None) ["orphan text"])
    by (constructor; [reflexivity|constructor]).
  assert (H2 : starts_record ["02-03-2024 Compra 111 $10,00$100,00"])
    by (simpl; discriminate).
  split; [exact H1|]. split; [exact H2|].
  exact (proj1 (combine_pre_date_lines _ _ H1 H2)).
Defined.

(** C5: splitting a text at a line break followed by a date line,
    reconstructing each part and concatenating gives the reconstruction
    of the whole text. *)
Theorem combine_broken_lines_split : forall t1 t2,
  date_match (hd EmptyString (split_lines t2)) <> None ->
  combine_broken_lines (append t1 (append nl t2)) =
  (combine_broken_lines t1 ++ combine_broken_lines t2)%list.
Proof.
  intros t1 t2 H. unfold combine_broken_lines. rewrite split_lines_app.
  apply combine_lines_app. unfold split_lines in *.
  destruct (split_nl t2). exact H.
Qed.

Lemma combine_broken_lines_split_witness :
  date_match (hd EmptyString (split_lines "02-03-2024 Compra 111 $10,00$100,00")) <> None /\
  combine_broken_lines
    (append (append "01-03-2024 Pago" (append nl "de servicios 987654 $1.000,00$5.432,10"))
       (append nl "02-03-2024 Compra 111 $10,00$100,00")) =
  (combine_broken_lines (append "01-03-2024 Pago" (append nl "de servicios 987654 $1.000,00$5.432,10"))
  ++ combine_broken_lines "02-03-2024 Compra 111 $10,00$100,00")%list.
Proof.
  assert (H : date_match (hd EmptyString (split_lines "02-03-2024 Compra 111 $10,00$100,00")) <> None)
    by (vm_compute; discriminate).
  split; [exact H|].
  exact (combine_broken_lines_split _ _ H).
Defined.

(** C4: for the text "orphan text" followed by a line
    "02-03-2024 Compra 111 $10,00$100,00", the pipeline yields exactly one
    record, ("02-03-2024", "Compra", "111", "10.00", "100.00"), and no
    field of it contains any piece of "orphan text" of two or more
    characters. *)
Theorem orphan_line_end_to_end :
  let text := append "orphan text" (append nl "02-03-2024 Compra 111 $10,00$100,00") in
  pdf_text_to_dataframe text =
    [mk_fields "02-03-2024" "Compra" "111" "10.00" "100.00"] /\
  forall r f p, In r (pdf_text_to_dataframe text) -> In f (field_list r) ->
    In p (long_parts 2 "orphan text") -> occurs_b p f = false.
Proof.
  intros text.
  assert (E : pdf_text_to_dataframe text =
              [mk_fields "02-03-2024" "Compra" "111" "10.00" "100.00"])
    by (vm_compute; reflexivity).
  split; [exact E|]. rewrite E. intros r f p [<-|[]] Hf Hp.
  assert (B : forallb (fun f => forallb (fun p => negb (occurs_b p f))
                                        (long_parts 2 "orphan text"))
                      (field_list (mk_fields "02-03-2024" "Compra" "111" "10.00" "100.00"))
              = true) by (vm_compute; reflexivity).
  rewrite forallb_forall in B. specialize (B f Hf).
  rewrite forallb_forall in B. specialize (B p Hp).
  apply negb_true_iff. exact B.
Qed.

(** C6: [convert_money_to_number] drops every ['$'] and every ['.'] and
    turns every [','] into ['.'] (then strips surrounding whitespace), so
    no ['$'] or [','] is left; "$1.234,56" gives "1234.56" and "$50,00"
    gives "50.00". *)
Theorem convert_money_to_number_steps : forall s,
  convert_money_to_number s = strip (money_text_spec s) /\
  has_char "$" (convert_money_to_number s) = false /\
  has_char "," (convert_money_to_number s) = false /\
  convert_money_to_number "$1.234,56" = "1234.56" /\
  convert_money_to_number "$50,00" = "50.00".
Proof.
  intros s.
  assert (E : convert_money_to_number s = strip (money_text_spec s))
    by (unfold convert_money_to_number; rewrite convert_three_passes; reflexivity).
  rewrite E. split; [reflexivity|]. split; [|split; [|split]].
  - rewrite has_char_strip by reflexivity. apply has_char_money_text_spec. auto.
  - rewrite has_char_strip by reflexivity. apply has_char_money_text_spec. auto.
  - reflexivity.
  - reflexivity.
Qed.

(** C7: in every record the balance is [clean_balance] of the normalised
    balance span, with at most two characters after its first ['.'],
    while the value is the normalised value span, not clamped; a span
    "$100,456" gives the value "100.456" but the balance "100.45". *)
Theorem balance_clamped_value_not :
  (forall line r, extract_fields_from_line line = Some r ->
     exists rest p1 p2 ps,
       rest = strip (py_drop line (String.length (f_date r))) /\
       money_matches rest = p1 :: p2 :: ps /\
       f_value r = convert_money_to_number (strip (py_slice rest p1 p2)) /\
       f_balance r = clean_balance (convert_money_to_number (strip (py_drop rest p2))) /\
       at_most_two_decimals (f_balance r)) /\
  extract_fields_from_line "01-01-2024 X 1 $100,456$100,456" =
    Some (mk_fields "01-01-2024" "X" "1" "100.456" "100.45").
Proof.
  split; [|vm_compute; reflexivity].
  intros line r H.
  destruct (extract_some_shape line r H)
    as (rest & p1 & p2 & ps & _ & Hr & Hm & _ & _ & Hv & Hb).
  exists rest, p1, p2, ps. repeat split; auto.
  rewrite Hb. apply clean_balance_decimals.
Qed.

Lemma balance_clamped_value_not_witness :
  exists rest p1 p2 ps,
    rest = strip (py_drop "01-01-2024 X 1 $100,456$100,456" 10) /\
    money_matches rest = p1 :: p2 :: ps /\
    "100.456" = convert_money_to_number (strip (py_slice rest p1 p2)) /\
    "100.45" = clean_balance (convert_money_to_number (strip (py_drop rest p2))) /\
    at_most_two_decimals "100.45".
Proof.
  exact (proj1 balance_clamped_value_not "01-01-2024 X 1 $100,456$100,456"
           (mk_fields "01-01-2024" "X" "1" "100.456" "100.45")
           (proj2 balance_clamped_value_not)).
Defined.

(** C8: [clean_balance] is idempotent. *)
Theorem clean_balance_idempotent : forall s,
  clean_balance (clean_balance s) = clean_balance s.
Proof.
  intros s.
  destruct (index_char "."%char s) as [k|] eqn:Ek.
  - destruct (k + 3 <? String.length s)%nat eqn:Elt.
    + assert (E : clean_balance s = substring 0 (k + 3) s)
        by (unfold clean_balance; rewrite Ek, Elt; reflexivity).
      rewrite E. apply Nat.ltb_lt in Elt. unfold clean_balance.
      rewrite (index_char_substring _ _ k (k + 3) Ek) by lia.
      rewrite substring_0_length by lia. rewrite Nat.ltb_irrefl. reflexivity.
    + assert (E : clean_balance s = s)
        by (unfold clean_balance; rewrite Ek, Elt; reflexivity).
      rewrite !E. reflexivity.
  - assert (E : clean_balance s = s) by (unfold clean_balance; rewrite Ek; reflexivity).
    rewrite !E. reflexivity.
Qed.

(** C9: [extract_fields_from_line] is total: it returns either no match or
    a record, and every index it slices with lies inside its string; in
    particular [before_money.rfind(operation_id)] is never -1, so the
    description slice never takes the negative-index branch, also when the
    identifier occurs earlier in the line. *)
Theorem extract_indices_in_bounds :
  (forall line, extract_fields_from_line line = None \/
                exists r, extract_fields_from_line line = Some r) /\
  (forall line date, date_match line = Some date ->
   String.length date <= String.length line /\
   forall p1 p2 ps,
     money_matches (strip (py_drop line (String.length date))) = p1 :: p2 :: ps ->
     p1 < p2 < String.length (strip (py_drop line (String.length date))) /\
     forall operation_id,
       last_opt (digit_runs (strip (py_slice (strip (py_drop line (String.length date))) 0 p1)))
         = Some operation_id ->
       let before_money := strip (py_slice (strip (py_drop line (String.length date))) 0 p1) in
       (0 <= rfind before_money operation_id)%Z /\
       (rfind before_money operation_id + Z.of_nat (String.length operation_id)
          <= Z.of_nat (String.length before_money))%Z /\
       py_slice_to before_money (rfind before_money operation_id) =
         substring 0 (Z.to_nat (rfind before_money operation_id)) before_money).
Proof.
  split.
  { intros line. destruct (extract_fields_from_line line); eauto. }
  intros line date Hd. split; [destruct (date_match_length _ _ Hd); lia|].
  intros p1 p2 ps Hm. split.
  - split; [exact (money_positions_sorted _ _ _ _ _ Hm)|].
    assert (Hin : In p2 (money_matches (strip (py_drop line (String.length date)))))
      by (rewrite Hm; right; left; reflexivity).
    apply money_positions_ge in Hin. lia.
  - intros oid Hl before_money.
    destruct (rfind_digit_run before_money oid (last_opt_In _ _ Hl)) as [H0 H1].
    split; [exact H0|]. split; [exact H1|].
    unfold py_slice_to. destruct (Z.ltb_spec (rfind before_money oid) 0); [lia|].
    reflexivity.
Qed.

Lemma extract_indices_in_bounds_witness :
  String.length "01-03-2024" <= String.length "01-03-2024 Pago 7 de 7 $1,00$2,00" /\
  (0 <= rfind "Pago 7 de 7" "7")%Z.
Proof.
  destruct (proj2 extract_indices_in_bounds "01-03-2024 Pago 7 de 7 $1,00$2,00" "01-03-2024"
              eq_refl) as [Hl Hrest].
  split; [exact Hl|].
  destruct (Hrest 12 17 [] eq_refl) as [_ Hid].
  exact (proj1 (Hid "7" eq_refl)).
Defined.

(** C10: with a leading date, a digit before the first ['$'] and three or
    more ['$'] after the date, the line still gives exactly one record:
    the spans are cut at the first two markers only, and the balance span
    runs from the second marker to the end, holding that marker and every
    later one. *)
Theorem extract_extra_markers_in_balance : forall line date,
  date_match line = Some date ->
  3 <= count_money (py_drop line (String.length date)) ->
  digit_before_money (py_drop line (String.length date)) = true ->
  exists p1 p2 ps description operation_id,
    money_matches (strip (py_drop line (String.length date))) = p1 :: p2 :: ps /\
    ps <> [] /\
    extract_fields_from_line line =
      Some (mk_fields date description operation_id
              (convert_money_to_number
                 (strip (py_slice (strip (py_drop line (String.length date))) p1 p2)))
              (clean_balance (convert_money_to_number
                 (strip (py_drop (strip (py_drop line (String.length date))) p2))))) /\
    count_money (py_drop (strip (py_drop line (String.length date))) p2) = S (length ps).
Proof.
  intros line date Hd H3 Hdig.
  assert (Hc : length (money_matches (strip (py_drop line (String.length date)))) =
               count_money (py_drop line (String.length date)))
    by (unfold money_matches; rewrite money_positions_length; apply count_money_strip).
  unfold extract_fields_from_line. rewrite Hd.
  destruct (money_matches (strip (py_drop line (String.length date))))
    as [|p1 [|p2 ps]] eqn:Em; simpl in Hc; try lia.
  assert (Hdg : has_digit (strip (py_slice (strip (py_drop line (String.length date))) 0 p1))
                = true).
  { rewrite has_digit_strip. unfold py_slice.
    rewrite (money_positions_first_digit _ 0 p1 (p2 :: ps) Em).
    rewrite digit_before_money_strip. exact Hdig. }
  destruct (last_opt (digit_runs (strip (py_slice (strip (py_drop line (String.length date))) 0 p1))))
    as [oid|] eqn:El.
  2:{ apply last_opt_None, digit_runs_nil in El. congruence. }
  do 5 eexists. split; [reflexivity|]. split; [destruct ps; simpl in Hc; [lia|discriminate]|].
  split; [reflexivity|].
  pose proof (count_money_from_marker _ 0 [p1] p2 ps Em) as Hk.
  rewrite Nat.sub_0_r in Hk. exact Hk.
Qed.

Lemma extract_extra_markers_in_balance_witness :
  exists p1 p2 ps description operation_id,
    money_matches (strip (py_drop "01-03-2024 Pago 987654 $1,00$2,00 $3,00" 10)) = p1 :: p2 :: ps /\
    ps <> [] /\
    extract_fields_from_line "01-03-2024 Pago 987654 $1,00$2,00 $3,00" =
      Some (mk_fields "01-03-2024" description operation_id
              (convert_money_to_number
                 (strip (py_slice (strip (py_drop "01-03-2024 Pago 987654 $1,00$2,00 $3,00" 10)) p1 p2)))
              (clean_balance (convert_money_to_number
                 (strip (py_drop (strip (py_drop "01-03-2024 Pago 987654 $1,00$2,00 $3,00" 10)) p2))))) /\
    count_money (py_drop (strip (py_drop "01-03-2024 Pago 987654 $1,00$2,00 $3,00" 10)) p2)
      = S (length ps).
Proof.
  apply (extract_extra_markers_in_balance "01-03-2024 Pago 987654 $1,00$2,00 $3,00" "01-03-2024");
    vm_compute; [reflexivity | lia | reflexivity].
Defined.

(* ================================================================== *)
(** * Further properties of the code *)

(** ** Lemmas *)

Lemma has_char_cons : forall d c s,
  has_char d (String c s) = Ascii.eqb c d || has_char d s.
Proof. reflexivity. Qed.

Lemma sanitize_filename_cons : forall c s,
  sanitize_filename (String c s) =
  if forbidden_char c then sanitize_filename s
  else if Ascii.eqb c " "%char then String "_" (sanitize_filename s)
  else String c (sanitize_filename s).
Proof.
  intros c s. unfold sanitize_filename. cbn [remove_forbidden].
  destruct (forbidden_char c); [reflexivity|]. cbn [replace_char].
  destruct (Ascii.eqb c " "%char); reflexivity.
Qed.

Lemma substring_0_prefix : forall s n, prefix (substring 0 n s) s = true.
Proof.
  induction s as [|c s IH]; intros [|n]; simpl; try reflexivity.
  destruct (ascii_dec c c); [apply IH|congruence].
Qed.

Lemma prefix_refl_s : forall s, prefix s s = true.
Proof.
  induction s as [|c s IH]; [reflexivity|]. simpl.
  destruct (ascii_dec c c); [exact IH|congruence].
Qed.

Lemma date_match_self : forall s d,
  date_match s = Some d -> d = substring 0 10 s /\ date_match d = Some d.
Proof.
  intros s d H.
  do 10 (destruct s as [|?c s]; [discriminate H|]).
  cbn [date_match] in H.
  match type of H with (if ?b then _ else _) = _ => destruct b eqn:Hb; [|discriminate] end.
  injection H as <-. split; [reflexivity|].
  simpl. rewrite !substring_0_0. simpl. rewrite Hb. rewrite ?substring_0_0. reflexivity.
Qed.

Lemma digit_runs_all_digits : forall s x, In x (digit_runs s) -> all_digits x = true.
Proof.
  assert (Hd : forall t c x xs, is_digit c = true -> digit_runs (String c t) = x :: xs ->
                 all_digits x = true).
  { induction t as [|c2 t IH]; intros c x xs Hc H; rewrite digit_runs_cons, Hc in H.
    - injection H as <- _. unfold all_digits; simpl. rewrite Hc. reflexivity.
    - destruct (is_digit c2) eqn:E2.
      + destruct (digit_runs (String c2 t)) as [|y ys] eqn:Er.
        * injection H as <- _. unfold all_digits; simpl. rewrite Hc. reflexivity.
        * injection H as <- _. unfold all_digits in *; simpl. rewrite Hc.
          eapply IH; eauto.
      + injection H as <- _. unfold all_digits; simpl. rewrite Hc. reflexivity. }
  induction s as [|c s IH]; intros x H; [contradiction|]. rewrite digit_runs_cons in H.
  destruct (is_digit c) eqn:Ec; [|auto].
  destruct s as [|c2 t].
  - destruct H as [<-|[]]. unfold all_digits; simpl. rewrite Ec. reflexivity.
  - destruct (is_digit c2) eqn:E2.
    + destruct (digit_runs (String c2 t)) as [|y ys] eqn:Er.
      * destruct H as [<-|[]]. unfold all_digits; simpl. rewrite Ec. reflexivity.
      * destruct H as [<-|H]; [|apply IH; right; exact H].
        unfold all_digits in *; simpl. rewrite Ec. eapply Hd; eauto.
    + destruct H as [<-|H]; [|auto]. unfold all_digits; simpl. rewrite Ec. reflexivity.
Qed.

(** ** Properties *)


(** [sanitize_filename] is idempotent. *)
Theorem sanitize_filename_idempotent : forall s,
  sanitize_filename (sanitize_filename s) = sanitize_filename s.
Proof.
  induction s as [|c s IH]; [reflexivity|].
  rewrite sanitize_filename_cons.
  destruct (forbidden_char c) eqn:Ef; [exact IH|].
  destruct (Ascii.eqb c " "%char) eqn:Es.
  - rewrite sanitize_filename_cons. simpl. rewrite IH. reflexivity.
  - rewrite sanitize_filename_cons, Ef, Es, IH. reflexivity.
Qed.

(** [clean_balance] only ever cuts its input: the result is a prefix of
    it, and the input is returned unchanged exactly when at most two
    characters follow its first ['.'] (or it has none). *)
Theorem clean_balance_prefix : forall s,
  prefix (clean_balance s) s = true /\
  (clean_balance s = s <-> at_most_two_decimals s).
Proof.
  intros s. split.
  - unfold clean_balance. destruct (index_char "."%char s) as [k|];
      [destruct (k + 3 <? String.length s)%nat|]; 
      first [apply substring_0_prefix | apply prefix_refl_s].
  - split.
    + intros E. rewrite <- E. apply clean_balance_decimals.
    + intros H. unfold clean_balance.
      destruct (index_char "."%char s) as [k|] eqn:Ek; [|reflexivity].
      specialize (H k Ek). destruct (Nat.ltb_spec (k + 3) (String.length s)); [lia|reflexivity].
Qed.

(** Every record's date is the first ten characters of its line and
    itself matches the date pattern; its operation id is a non-empty run
    of digits. *)
Theorem extract_fields_shape : forall line r,
  extract_fields_from_line line = Some r ->
  f_date r = substring 0 10 line /\ date_match (f_date r) = Some (f_date r) /\
  f_operation_id r <> EmptyString /\ all_digits (f_operation_id r) = true.
Proof.
  intros line r H.
  destruct (extract_some_shape line r H) as (rest & p1 & p2 & ps & Hd & _ & _ & Hl & _).
  destruct (date_match_self _ _ Hd) as [E1 E2].
  pose proof (last_opt_In _ _ Hl) as Hin.
  split; [exact E1|]. split; [exact E2|]. split.
  - exact (proj2 (digit_runs_occur _ _ Hin)).
  - exact (digit_runs_all_digits _ _ Hin).
Qed.

Lemma extract_fields_shape_witness :
  substring 0 10 "01-03-2024 Pago de servicios 987654 $1.000,00$5.432,10" = "01-03-2024" /\
  all_digits "987654" = true.
Proof.
  destruct (extract_fields_shape "01-03-2024 Pago de servicios 987654 $1.000,00$5.432,10"
              (mk_fields "01-03-2024" "Pago de servicios" "987654" "1000.00" "5432.10")
              ltac:(vm_compute; reflexivity)) as [E1 [_ [_ E4]]].
  split; [symmetry; exact E1|exact E4].
Defined.

Lemma date_line_truthy : forall l d, date_match l = Some d -> truthy l = true.
Proof. intros [|c l] d H; [discriminate|reflexivity]. Qed.

Lemma combine_count_from : forall l acc cur,
  length (combine_finish (fold_left combine_step l (mk_cstate acc cur))) =
  length acc + count_date_lines l +
  (if truthy cur then 1 else leading_continuation l).
Proof.
  unfold count_date_lines.
  induction l as [|line l IH]; intros acc cur.
  - unfold combine_finish; simpl. destruct (truthy cur); simpl;
      [rewrite length_app; simpl|]; lia.
  - cbn [fold_left]. rewrite combine_step_mk. simpl.
    destruct (date_match line) eqn:E; rewrite IH.
    + rewrite (date_line_truthy _ _ E).
      destruct (truthy cur); simpl; [rewrite length_app; simpl|]; lia.
    + replace (truthy (append cur (String " " line))) with true
        by (destruct cur; reflexivity).
      destruct (truthy cur); lia.
Qed.

(** [combine_broken_lines] gives one logical line per raw line that
    starts with a date, plus one more exactly when the first raw line does
    not start with a date. *)
Theorem combine_broken_lines_count : forall text,
  length (combine_broken_lines text) =
  count_date_lines (split_lines text) + leading_continuation (split_lines text).
Proof.
  intros text. unfold combine_broken_lines, combine_lines.
  rewrite combine_count_from. reflexivity.
Qed.

Lemma has_char_lstrip : forall d s, has_char d (lstrip s) = true -> has_char d s = true.
Proof.
  induction s as [|c s IH]; intros H; [exact H|]. simpl in H.
  destruct (is_space c); [|exact H]. rewrite has_char_cons, IH by exact H.
  apply orb_true_r.
Qed.

Lemma has_char_rstrip : forall d s, has_char d (rstrip s) = true -> has_char d s = true.
Proof.
  induction s as [|c s IH]; intros H; [exact H|]. cbn [rstrip] in H.
  rewrite has_char_cons. destruct (rstrip s) as [|e r] eqn:E.
  - destruct (is_space c); [discriminate|].
    rewrite has_char_cons in H. apply orb_true_iff in H as [H|H];
      [rewrite H; reflexivity|discriminate].
  - rewrite has_char_cons in H. apply orb_true_iff in H as [H|H];
      [rewrite H; reflexivity|].
    rewrite (IH H). apply orb_true_r.
Qed.

Lemma has_char_strip_sub : forall d s, has_char d (strip s) = true -> has_char d s = true.
Proof. intros d s H. apply has_char_lstrip, has_char_rstrip, H. Qed.

Lemma rstrip_cons : forall c s,
  rstrip (String c s) =
  match rstrip s with
  | EmptyString => if is_space c then EmptyString else String c EmptyString
  | r => String c r
  end.
Proof. reflexivity. Qed.

Lemma rstrip_idem : forall s, rstrip (rstrip s) = rstrip s.
Proof.
  induction s as [|c s IH]; [reflexivity|]. rewrite rstrip_cons.
  destruct (rstrip s) as [|e r] eqn:E.
  - destruct (is_space c) eqn:Ec; [reflexivity|]. rewrite rstrip_cons. simpl. rewrite Ec. reflexivity.
  - rewrite rstrip_cons, IH. reflexivity.
Qed.

Lemma lstrip_head : forall s c r, lstrip s = String c r -> is_space c = false.
Proof.
  induction s as [|d s IH]; intros c r H; [discriminate|]. simpl in H.
  destruct (is_space d) eqn:Ed; [eauto|]. injection H as <- _. exact Ed.
Qed.

Lemma strip_idem : forall s, strip (strip s) = strip s.
Proof.
  intros s. unfold strip. destruct (lstrip s) as [|c r] eqn:E; [reflexivity|].
  pose proof (lstrip_head _ _ _ E) as Hc.
  rewrite rstrip_nonspace by exact Hc. rewrite lstrip_nonspace by exact Hc.
  rewrite <- rstrip_nonspace by exact Hc. apply rstrip_idem.
Qed.

Lemma split_nl_no_nl : forall s l,
  In l (fst (split_nl s) :: snd (split_nl s)) -> has_char "010"%char l = false.
Proof.
  induction s as [|c s IH]; intros l H.
  - simpl in H. destruct H as [<-|[]]. reflexivity.
  - simpl in H. destruct (split_nl s) as [a r] eqn:E. simpl in IH.
    destruct (Ascii.eqb_spec c "010"%char).
    + simpl in H. destruct H as [<-|H]; [reflexivity|]. apply IH; exact H.
    + simpl in H. destruct H as [<-|H]; [|apply IH; right; exact H].
      rewrite has_char_cons. destruct (Ascii.eqb_spec c "010"%char); [congruence|].
      apply IH. left. reflexivity.
Qed.

Lemma combine_clean_from : forall l acc cur,
  Forall (fun x => has_char "010"%char x = false) l ->
  has_char "010"%char cur = false -> Forall clean_logical acc ->
  Forall clean_logical (combine_finish (fold_left combine_step l (mk_cstate acc cur))).
Proof.
  assert (Hflush : forall acc cur, has_char "010"%char cur = false ->
            Forall clean_logical acc ->
            Forall clean_logical (if truthy cur then acc ++ [strip cur] else acc)).
  { intros acc cur Hc Ha. destruct (truthy cur); [|exact Ha].
    apply Forall_app; split; [exact Ha|]. constructor; [|constructor]. split.
    - destruct (has_char "010"%char (strip cur)) eqn:E; [|reflexivity].
      apply has_char_strip_sub in E. congruence.
    - apply strip_idem. }
  induction l as [|line l IH]; intros acc cur Hl Hc Ha.
  - unfold combine_finish; simpl. apply Hflush; assumption.
  - inversion Hl as [|? ? Hline Hl']; subst. cbn [fold_left]. rewrite combine_step_mk.
    destruct (date_match line).
    + apply IH; auto.
    + apply IH; auto. rewrite !has_char_append, Hc, Hline. reflexivity.
Qed.

(** Every logical line produced by [combine_broken_lines] is free of
    newlines and of leading and trailing whitespace. *)
Theorem combine_broken_lines_clean : forall text l,
  In l (combine_broken_lines text) ->
  has_char "010"%char l = false /\ strip l = l.
Proof.
  intros text l H.
  assert (Hall : Forall clean_logical (combine_broken_lines text)).
  { unfold combine_broken_lines, combine_lines. apply combine_clean_from.
    - apply Forall_forall. intros x Hx. apply split_nl_no_nl with (s := text).
      unfold split_lines in Hx. destruct (split_nl text). exact Hx.
    - reflexivity.
    - constructor. }
  rewrite Forall_forall in Hall. exact (Hall l H).
Qed.

Lemma combine_broken_lines_clean_witness :
  has_char "010"%char "01-03-2024 Pago de servicios" = false /\
  strip "01-03-2024 Pago de servicios" = "01-03-2024 Pago de servicios".
Proof.
  exact (combine_broken_lines_clean
           (append "01-03-2024 Pago" (append nl "de servicios"))
           "01-03-2024 Pago de servicios" ltac:(vm_compute; left; reflexivity)).
Defined.

(** A date line followed by lines that do not start with a date gives a
    single logical line: the date line with each continuation appended
    after one space, stripped. *)
Theorem combine_lines_continuation : forall d cs,
  date_match d <> None -> Forall (fun l => date_match l = None) cs ->
  combine_lines (d :: cs) = [strip (fold_left (fun acc l => append acc (append " " l)) cs d)].
Proof.
  intros d cs Hd Hcs. unfold combine_lines. cbn [fold_left]. rewrite combine_step_mk.
  destruct (date_match d) as [dd|] eqn:E; [|congruence]. simpl.
  rewrite combine_fold_continuations by exact Hcs.
  unfold combine_finish; simpl.
  assert (Ht : forall cur, truthy cur = true ->
            truthy (fold_left (fun acc l => append acc (append " " l)) cs cur) = true).
  { clear. induction cs as [|l cs IH]; intros cur H; [exact H|]. simpl. apply IH.
    destruct cur; [discriminate|reflexivity]. }
  rewrite Ht by exact (date_line_truthy _ _ E). reflexivity.
Qed.

Lemma combine_lines_continuation_witness :
  combine_lines ["01-03-2024 Pago"; "de servicios 987654 $1.000,00$5.432,10"] =
  [strip (fold_left (fun acc l => append acc (append " " l))
            ["de servicios 987654 $1.000,00$5.432,10"] "01-03-2024 Pago")].
Proof.
  apply combine_lines_continuation.
  - vm_compute. discriminate.
  - constructor; [vm_compute; reflexivity|constructor].
Defined.

Lemma clean_balance_prefix_witness :
  prefix (clean_balance "100.456") "100.456" = true /\
  (clean_balance "100.456" = "100.456" <-> at_most_two_decimals "100.456").
Proof. exact (clean_balance_prefix "100.456"). Defined.

(** ** Pages and files *)

Lemma rstrip_append_space : forall x, rstrip (append x " ") = rstrip x.
Proof.
  induction x as [|c x IH]; [reflexivity|].
  change (append (String c x) " ") with (String c (append x " ")).
  rewrite !rstrip_cons, IH. reflexivity.
Qed.

Lemma lstrip_append : forall c d,
  lstrip (append c d) = if truthy (lstrip c) then append (lstrip c) d else lstrip d.
Proof.
  induction c as [|a c IH]; intros d; [reflexivity|]. simpl.
  destruct (is_space a); [apply IH|reflexivity].
Qed.

Lemma strip_append_space : forall c, strip (append c " ") = strip c.
Proof.
  intros c. unfold strip. rewrite lstrip_append.
  destruct (lstrip c) as [|a r] eqn:E; [reflexivity|].
  apply rstrip_append_space.
Qed.

(** A trailing empty raw line adds no record. *)
Lemma records_trailing_empty : forall l,
  collect_records (combine_lines (l ++ [EmptyString])) = collect_records (combine_lines l).
Proof.
  intros l. unfold combine_lines. rewrite fold_left_app.
  destruct (fold_left combine_step l (mk_cstate [] EmptyString)) as [A c].
  cbn [fold_left]. rewrite combine_step_mk. simpl date_match. cbv iota.
  unfold combine_finish; cbn [current_line combined_lines].
  replace (truthy (append c (append " " EmptyString))) with true
    by (destruct c; reflexivity).
  change (append " " EmptyString) with " ". rewrite strip_append_space.
  destruct (truthy c) eqn:Ec; [reflexivity|].
  destruct c; [|discriminate]. rewrite collect_records_app.
  rewrite (collect_records_single_none (strip EmptyString)) by reflexivity.
  apply app_nil_r.
Qed.

Lemma read_pdf_text_acc : forall pages text,
  fold_left (fun text page_text =>
               if truthy page_text then append text (append page_text nl) else text)
            pages text =
  append text (read_pdf_text pages).
Proof.
  unfold read_pdf_text.
  induction pages as [|p ps IH]; intros text; simpl.
  - induction text as [|c t IHt]; simpl; congruence.
  - destruct (truthy p); rewrite IH; [|reflexivity].
    rewrite (IH (append p nl)). apply append_assoc_s.
Qed.

Lemma read_pdf_text_cons : forall p ps,
  read_pdf_text (p :: ps) =
  if truthy p then append p (append nl (read_pdf_text ps)) else read_pdf_text ps.
Proof.
  intros p ps. unfold read_pdf_text at 1. simpl.
  destruct (truthy p); rewrite read_pdf_text_acc; [|reflexivity].
  apply append_assoc_s.
Qed.

Lemma split_lines_head : forall t1 t2,
  hd EmptyString (split_lines (append t1 (append nl t2))) = hd EmptyString (split_lines t1).
Proof.
  intros t1 t2. rewrite split_lines_app. unfold split_lines.
  destruct (split_nl t1). reflexivity.
Qed.

Lemma read_pdf_text_starts : forall pages,
  Forall page_starts_record pages -> truthy (read_pdf_text pages) = true ->
  starts_record (split_lines (read_pdf_text pages)).
Proof.
  induction pages as [|p ps IH]; intros Hall Ht; [discriminate|].
  inversion Hall as [|? ? Hp Hps]; subst. rewrite read_pdf_text_cons in *.
  destruct (truthy p) eqn:Ep; [|auto].
  specialize (Hp Ep). rewrite <- (split_lines_head p (read_pdf_text ps)) in Hp.
  destruct (split_lines (append p (append nl (read_pdf_text ps)))); [exact I|exact Hp].
Qed.

Lemma pdf_text_to_dataframe_empty : pdf_text_to_dataframe EmptyString = [].
Proof. vm_compute. reflexivity. Qed.

(** When every non-empty page text begins with a date line, parsing the
    text that [read_pdf_text] assembles gives the rows of each page parsed
    on its own, in page order. *)
Theorem read_pdf_text_pages : forall pages,
  Forall (fun p => truthy p = true -> date_match (hd EmptyString (split_lines p)) <> None) pages ->
  pdf_text_to_dataframe (read_pdf_text pages) = concat (map pdf_text_to_dataframe pages).
Proof.
  induction pages as [|p ps IH]; intros Hall; [reflexivity|].
  assert (Hall' : Forall page_starts_record (p :: ps)) by exact Hall.
  inversion Hall as [|? ? Hp Hps]; subst. cbn [map concat].
  rewrite read_pdf_text_cons, <- IH by exact Hps.
  destruct (truthy p) eqn:Ep.
  - unfold pdf_text_to_dataframe at 1, combine_broken_lines.
    rewrite split_lines_app.
    destruct (truthy (read_pdf_text ps)) eqn:Er.
    + rewrite combine_lines_app.
      * rewrite collect_records_app. reflexivity.
      * inversion Hall'; apply read_pdf_text_starts; assumption.
    + destruct (read_pdf_text ps); [|discriminate].
      rewrite pdf_text_to_dataframe_empty, app_nil_r.
      apply records_trailing_empty.
  - destruct p; [|discriminate]. rewrite pdf_text_to_dataframe_empty. reflexivity.
Qed.

Lemma read_pdf_text_pages_witness :
  pdf_text_to_dataframe
    (read_pdf_text ["01-03-2024 Pago 987654 $1.000,00 $5.432,10";
                    EmptyString;
                    "02-03-2024 Cobro 12 $3,00 $5.435,10"]) =
  concat (map pdf_text_to_dataframe
    ["01-03-2024 Pago 987654 $1.000,00 $5.432,10";
     EmptyString;
     "02-03-2024 Cobro 12 $3,00 $5.435,10"]).
Proof.
  apply read_pdf_text_pages.
  repeat constructor; intros H; vm_compute in H; try discriminate; vm_compute; discriminate.
Defined.

Lemma consolidated_texts_acc : forall uploaded acc,
  fold_left (fun acc t =>
               match t with
               | Some text => if truthy text then (acc ++ [text])%list else acc
               | None => acc
               end) uploaded acc =
  (acc ++ flat_map (fun t => match t with
                            | Some text => if truthy text then [text] else []
                            | None => [] end) uploaded)%list.
Proof.
  induction uploaded as [|t ts IH]; intros acc; simpl; [symmetry; apply app_nil_r|].
  rewrite IH. destruct t as [text|]; [destruct (truthy text)|]; simpl;
    rewrite <- ?app_assoc; reflexivity.
Qed.

Lemma split_lines_nonempty : forall s, 1 <= length (split_lines s).
Proof. intros s. unfold split_lines. destruct (split_nl s). simpl. lia. Qed.

Lemma total_lines_bound : forall texts n,
  n + length texts <= fold_left (fun n text => n + length (split_lines text)) texts n.
Proof.
  induction texts as [|t ts IH]; intros n; simpl; [lia|].
  specialize (IH (n + length (split_lines t))). pose proof (split_lines_nonempty t). lia.
Qed.

(** [process_uploaded_files] returns early exactly when no uploaded file
    yields a non-empty text; otherwise the consolidated rows are the rows of
    each file parsed on its own, in upload order, a file that could not be
    read or has an empty text contributing none. *)
Theorem consolidated_rows_spec : forall uploaded,
  consolidated_rows uploaded =
  if existsb (fun t => match t with Some text => truthy text | None => false end) uploaded
  then Some (concat (map (fun t => match t with
                                   | Some text => process_single_file text
                                   | None => [] end) uploaded))
  else None.
Proof.
  intros [|t0 ts0]; [reflexivity|].
  unfold consolidated_rows. cbv beta iota zeta.
  rewrite consolidated_texts_acc. cbn [app].
  generalize (t0 :: ts0) as uploaded. intros uploaded.
  set (sel := fun t : option string => match t with
              | Some text => if truthy text then [text] else []
              | None => [] end).
  assert (Hex : existsb (fun t => match t with Some text => truthy text | None => false end) uploaded
                = negb (match flat_map sel uploaded with [] => true | _ => false end)).
  { subst sel. clear. induction uploaded as [|t ts IH]; [reflexivity|]. simpl.
    destruct t as [text|]; [destruct (truthy text)|]; simpl; [reflexivity| |]; exact IH. }
  assert (Hrows : concat (map process_single_file (flat_map sel uploaded)) =
                  concat (map (fun t => match t with
                                        | Some text => process_single_file text
                                        | None => [] end) uploaded)).
  { subst sel. clear Hex. induction uploaded as [|t ts IH]; [reflexivity|].
    cbn [flat_map map concat]. rewrite map_app, concat_app, IH. f_equal.
    destruct t as [text|]; [|reflexivity]. simpl.
    destruct (truthy text) eqn:Et; simpl; [apply app_nil_r|].
    destruct text; [|discriminate]. symmetry. apply pdf_text_to_dataframe_empty. }
  rewrite Hex, Hrows.
  destruct (flat_map sel uploaded) as [|x xs] eqn:Ef; [reflexivity|].
  pose proof (total_lines_bound (x :: xs) 0) as Hb.
  destruct (fold_left (fun n text => n + length (split_lines text)) (x :: xs) 0) eqn:Et;
    [simpl in Hb; lia|reflexivity].
Qed.

Lemma money_positions_no_marker_before : forall s i p ps,
  money_positions_from s i = p :: ps -> has_char "$"%char (substring 0 (p - i) s) = false.
Proof.
  induction s as [|c s IH]; intros i p ps H; cbn [money_positions_from] in H; [discriminate|].
  destruct (Ascii.eqb c "$"%char) eqn:Ed.
  - injection H as <- _. rewrite Nat.sub_diag. reflexivity.
  - assert (Hp : S i <= p) by
      (apply (money_positions_ge s (S i) p); rewrite H; left; auto).
    replace (p - i) with (S (p - S i)) by lia. cbn [substring].
    rewrite has_char_cons, Ed. exact (IH _ _ _ H).
Qed.

Lemma has_char_substring0 : forall d s n,
  has_char d (substring 0 n s) = true -> has_char d s = true.
Proof.
  induction s as [|c s IH]; intros n H; destruct n as [|n]; try exact H; try discriminate H.
  cbn [substring] in H. rewrite has_char_cons in *.
  apply orb_true_iff in H as [H|H]; [rewrite H; reflexivity|].
  rewrite (IH n H). apply orb_true_r.
Qed.

(** The description of every record is free of leading and trailing
    whitespace and never contains a ['$']. *)
Theorem extract_description_clean : forall line r,
  extract_fields_from_line line = Some r ->
  has_char "$"%char (f_description r) = false /\ strip (f_description r) = f_description r.
Proof.
  intros line r H.
  destruct (extract_some_shape line r H) as (rest & p1 & p2 & ps & _ & _ & Hm & _ & Hd & _).
  rewrite Hd. split; [|apply strip_idem].
  destruct (has_char "$"%char _) eqn:E; [|reflexivity].
  apply has_char_strip_sub in E. unfold py_slice_to in E.
  destruct (_ <? 0)%Z in E; apply has_char_substring0, has_char_strip_sub in E;
    unfold py_slice in E; rewrite Nat.sub_0_r in E;
    pose proof (money_positions_no_marker_before _ _ _ _ Hm) as Hn;
    rewrite Nat.sub_0_r in Hn; congruence.
Qed.

Lemma extract_description_clean_witness :
  has_char "$"%char "Pago de servicios" = false /\
  strip "Pago de servicios" = "Pago de servicios".
Proof.
  exact (extract_description_clean "01-03-2024 Pago de servicios 987654 $1.000,00$5.432,10"
           (mk_fields "01-03-2024" "Pago de servicios" "987654" "1000.00" "5432.10")
           ltac:(vm_compute; reflexivity)).
Defined.

